(** * epiforecast: the scalar type aliases of [src/epiforecast_types.hpp]

    The header is a list of C++ alias-declarations.  This development
    keeps the text of the header, reads it with a small lexer and parser
    for the fragment of C++ it is written in, elaborates the declarations
    into a scope, and gives the shallow embedding of the aliases as Rocq
    types.  The properties of the header are then proved about the text
    itself. *)

From Stdlib Require Import Ascii PrimFloat.
From stdpp Require Import strings gmap.

Local Open Scope string_scope.

(** ** The source text *)

Module Source.

(** File name of the header inside the package. *)
Definition path : string := "src/epiforecast_types.hpp".

(** The lines of the header, in order.  The last line carries no
    newline. *)
Definition epiforecast_types_hpp : list string :=
  [
    "// author_header begin";
    "// Copyright (C) 2017 Logan C. Brooks";
    "//";
    "// This file is part of epiforecast.  Algorithms included in epiforecast were developed by Logan C. Brooks, David C. Farrow, Sangwon Hyun, Shannon Gallagher, Ryan J. Tibshirani, Roni Rosenfeld, and Rob Tibshirani (Stanford University), members of the Delphi group at Carnegie Mellon University.";
    "//";
    "// Research reported in this publication was supported by the National Institute Of General Medical Sciences of the National Institutes of Health under Award Number U54 GM088491. The content is solely the responsibility of the authors and does not necessarily represent the official views of the National Institutes of Health. This material is based upon work supported by the National Science Foundation Graduate Research Fellowship Program under Grant No. DGE-1252522. Any opinions, findings, and conclusions or recommendations expressed in this material are those of the authors and do not necessarily reflect the views of the National Science Foundation. David C. Farrow was a predoctoral trainee supported by NIH T32 training grant T32 EB009403 as part of the HHMI-NIBIB Interfaces Initiative. Ryan J. Tibshirani was supported by NSF grant DMS-1309174.";
    "// author_header end";
    "// license_header begin";
    "// epiforecast is free software: you can redistribute it and/or modify";
    "// it under the terms of the GNU General Public License as published by";
    "// the Free Software Foundation, version 2 of the License.";
    "//";
    "// epiforecast is distributed in the hope that it will be useful,";
    "// but WITHOUT ANY WARRANTY; without even the implied warranty of";
    "// MERCHANTABILITY or FITNESS FOR A PARTICULAR PURPOSE.  See the";
    "// GNU General Public License for more details.";
    "//";
    "// You should have received a copy of the GNU General Public License";
    "// along with epiforecast.  If not, see <http://www.gnu.org/licenses/>.";
    "// license_header end";
    "";
    "// Note: the naming of this file is important in determining whether it is";
    "// properly included by the Rcpp::export attribute.";
    "";
    "// xxx global typedefs; perhaps better as template arguments";
    "using Time = double;";
    "using Observation = double;";
    "using Mean = double;";
    "using SD = double;";
    "using LogLikelihood = double;";
    "using Rp = double;"
  ].

(** The source files of the package: one header. *)
Definition files : list (string * list string) :=
  [ (path, epiforecast_types_hpp) ].

End Source.

(** ** Lexical structure *)

Module Lexer.

Definition is_blank (c : ascii) : bool :=
  Ascii.eqb c " "%char || Ascii.eqb c "009"%char.

(** Letters, digits and the underscore. *)
Definition is_ident_char (c : ascii) : bool :=
  let n := nat_of_ascii c in
  ((48 <=? n) && (n <=? 57)
   || (65 <=? n) && (n <=? 90)
   || (97 <=? n) && (n <=? 122)
   || (n =? 95))%nat.

Fixpoint skip_blanks (s : string) : string :=
  match s with
  | String c s' => if is_blank c then skip_blanks s' else s
  | EmptyString => s
  end.

(** What a physical line of the header is. *)
Inductive line :=
  | Blank
  | Comment (text : string)
  | Directive (text : string)
  | Code (text : string).

Definition classify_line (s : string) : line :=
  match skip_blanks s with
  | EmptyString => Blank
  | String c r as s' =>
      if Ascii.eqb c "#"%char then Directive r
      else if String.prefix "//" s' then Comment r
      else Code s'
  end.

Inductive token :=
  | Word (w : string)
  | Punct (c : ascii).

Definition flush (w : string) (k : list token) : list token :=
  match w with
  | EmptyString => k
  | _ => Word w :: k
  end.

(** [tokens_from w s]: the tokens of [s], where [w] is the word read so
    far. *)
Fixpoint tokens_from (w : string) (s : string) : list token :=
  match s with
  | EmptyString => flush w []
  | String c s' =>
      if is_ident_char c then tokens_from (w ++ String c EmptyString) s'
      else if is_blank c then flush w (tokens_from EmptyString s')
      else flush w (Punct c :: tokens_from EmptyString s')
  end.

Definition tokenize (s : string) : list token := tokens_from EmptyString s.

End Lexer.

(** ** Declarations *)

Module Cxx.

Import Lexer.

(** The fundamental types of the fragment.  The header uses [double]
    only; [bool] and [char] are here so that a name can resolve to
    something else, and each has an exact carrier below. *)
Inductive fundamental := Fbool | Fchar | Fdouble.

#[global] Instance fundamental_eq_dec : EqDecision fundamental.
Proof. solve_decision. Defined.

Definition fundamental_of_keyword (w : string) : option fundamental :=
  if String.eqb w "bool" then Some Fbool
  else if String.eqb w "char" then Some Fchar
  else if String.eqb w "double" then Some Fdouble
  else None.

(** Width in bits of the object representation, as on the platforms the
    package is built for (the language leaves it to the implementation). *)
Definition size_bits (f : fundamental) : N :=
  match f with
  | Fbool => 8
  | Fchar => 8
  | Fdouble => 64
  end.

Definition is_floating (f : fundamental) : bool :=
  match f with
  | Fdouble => true
  | _ => false
  end.

(** A type as written in a declaration: a keyword or a declared name. *)
Inductive type_spec :=
  | Fundamental (f : fundamental)
  | TypeName (n : string).

Definition type_spec_of_word (w : string) : type_spec :=
  match fundamental_of_keyword w with
  | Some f => Fundamental f
  | None => TypeName w
  end.

Inductive decl :=
  | AliasDecl (name : string) (t : type_spec)      (* using name = t;  *)
  | ObjectDef (t : type_spec) (name : string)      (* t name;          *)
  | FunctionDecl (ret : type_spec) (name : string) (* ret name ( ...   *)
  | Unsupported (ts : list token).

Definition parse_decl (ts : list token) : decl :=
  match ts with
  | Word a :: Word b :: Punct p :: rest =>
      if String.eqb a "using" then
        match rest with
        | [Word t; Punct s] =>
            if Ascii.eqb p "="%char && Ascii.eqb s ";"%char
            then AliasDecl b (type_spec_of_word t)
            else Unsupported ts
        | _ => Unsupported ts
        end
      else if Ascii.eqb p "("%char then FunctionDecl (type_spec_of_word a) b
      else if Ascii.eqb p ";"%char then
        match rest with
        | [] => ObjectDef (type_spec_of_word a) b
        | _ => Unsupported ts
        end
      else Unsupported ts
  | _ => Unsupported ts
  end.

(** The items of a translation unit. *)
Inductive item :=
  | Preprocessor (text : string)
  | Declaration (d : decl).

Definition item_of_line (l : string) : option item :=
  match classify_line l with
  | Blank | Comment _ => None
  | Directive t => Some (Preprocessor t)
  | Code s => Some (Declaration (parse_decl (tokenize s)))
  end.

Definition parse (lines : list string) : list item := omap item_of_line lines.

(** Projections of a parsed unit. *)
Definition directives (its : list item) : list string :=
  omap (fun it => match it with Preprocessor t => Some t | _ => None end) its.

Definition aliases (its : list item) : list (string * type_spec) :=
  omap (fun it => match it with
                  | Declaration (AliasDecl n t) => Some (n, t)
                  | _ => None
                  end) its.

(** Declared functions: the operations a unit offers. *)
Definition operations (its : list item) : list string :=
  omap (fun it => match it with
                  | Declaration (FunctionDecl _ f) => Some f
                  | _ => None
                  end) its.

(** Defined objects: the state a unit owns. *)
Definition object_names (its : list item) : list string :=
  omap (fun it => match it with
                  | Declaration (ObjectDef _ x) => Some x
                  | _ => None
                  end) its.

Definition is_alias (it : item) : bool :=
  match it with
  | Declaration (AliasDecl _ _) => true
  | _ => false
  end.

End Cxx.

(** ** Elaboration of a translation unit *)

Module Elab.

Import Cxx.

(** What the declarations seen so far have introduced.  [typedefs] maps
    an alias to the type it names, already resolved; [objects] are the
    variables with static storage, the state of a program; [functions]
    maps a function to its return type. *)
Record scope := Scope {
  typedefs : gmap string fundamental;
  objects : gmap string fundamental;
  functions : gmap string fundamental
}.

Definition empty_scope : scope := Scope ∅ ∅ ∅.

Definition resolve (tbl : gmap string fundamental) (t : type_spec)
  : option fundamental :=
  match t with
  | Fundamental f => Some f
  | TypeName n => tbl !! n
  end.

(** A name may be declared again as an alias of the type it already
    names, and a function may be declared again with the same type; any
    other second declaration of a name is an error. *)
Definition elab_decl (sc : scope) (d : decl) : option scope :=
  match d with
  | AliasDecl n t =>
      match resolve (typedefs sc) t, objects sc !! n, functions sc !! n with
      | Some f, None, None =>
          match typedefs sc !! n with
          | None => Some (Scope (<[n:=f]> (typedefs sc)) (objects sc) (functions sc))
          | Some g => if decide (f = g) then Some sc else None
          end
      | _, _, _ => None
      end
  | ObjectDef t x =>
      match resolve (typedefs sc) t,
            typedefs sc !! x, objects sc !! x, functions sc !! x with
      | Some f, None, None, None =>
          Some (Scope (typedefs sc) (<[x:=f]> (objects sc)) (functions sc))
      | _, _, _, _ => None
      end
  | FunctionDecl t g =>
      match resolve (typedefs sc) t, typedefs sc !! g, objects sc !! g with
      | Some f, None, None =>
          match functions sc !! g with
          | None => Some (Scope (typedefs sc) (objects sc) (<[g:=f]> (functions sc)))
          | Some f' => if decide (f = f') then Some sc else None
          end
      | _, _, _ => None
      end
  | Unsupported _ => None
  end.

(** There is no file system here: a directive cannot be carried out. *)
Definition elab_item (sc : scope) (it : item) : option scope :=
  match it with
  | Preprocessor _ => None
  | Declaration d => elab_decl sc d
  end.

Fixpoint elaborate (its : list item) (sc : scope) : option scope :=
  match its with
  | [] => Some sc
  | it :: rest =>
      match elab_item sc it with
      | Some sc' => elaborate rest sc'
      | None => None
      end
  end.

(** Compiling a text: parse, then elaborate. *)
Definition translate (lines : list string) (sc : scope) : option scope :=
  elaborate (parse lines) sc.

(** Two written types are the same type. *)
Definition same_type (tbl : gmap string fundamental) (t1 t2 : type_spec) : bool :=
  match resolve tbl t1, resolve tbl t2 with
  | Some f1, Some f2 => bool_decide (f1 = f2)
  | _, _ => false
  end.

End Elab.

(** ** The shallow embedding of the header *)

(** [double] is IEEE-754 binary64, Rocq's primitive [float].  The six
    definitions after it are the six alias-declarations of the header,
    lines 26 to 31. *)
Definition double : Type := float.

Definition Time : Type := double.
Definition Observation : Type := double.
Definition Mean : Type := double.
Definition SD : Type := double.
Definition LogLikelihood : Type := double.
Definition Rp : Type := double.

Module Header.

Import Cxx Elab.

(** The carrier of each fundamental type. *)
Definition carrier (f : fundamental) : Type :=
  match f with
  | Fbool => bool
  | Fchar => Byte.byte
  | Fdouble => double
  end.

(** A value together with its type. *)
Definition value : Type := { f : fundamental & carrier f }.

Definition of_double (d : double) : value := existT Fdouble d.

Definition has_type (tbl : gmap string fundamental) (v : value) (t : type_spec)
  : bool :=
  bool_decide (resolve tbl t = Some (projT1 v)).

(** The Rocq type a declared name stands for. *)
Definition denote (tbl : gmap string fundamental) (n : string) : Type :=
  match tbl !! n with
  | Some f => carrier f
  | None => Empty_set
  end.

Definition items : list item := parse Source.epiforecast_types_hpp.

(** Including the header in a unit whose scope so far is [sc]. *)
Definition include (sc : scope) : option scope := elaborate items sc.

(** The names the header declares. *)
Definition alias_names : list string := (aliases items).*1.

(** The typedef table of a unit that consists of the header. *)
Definition table : gmap string fundamental :=
  match include empty_scope with
  | Some sc => typedefs sc
  | None => ∅
  end.

(** The declaration [using n = double;]. *)
Definition double_alias (n : string) : item :=
  Declaration (AliasDecl n (Fundamental Fdouble)).

(** A scope admits [n] as an alias of [double] when [n] is neither an
    object nor a function in it, and, if [n] is already a typedef, it is
    one of [double]. *)
Definition admits (sc : scope) (n : string) : bool :=
  match objects sc !! n, functions sc !! n, typedefs sc !! n with
  | None, None, None => true
  | None, None, Some f => bool_decide (f = Fdouble)
  | _, _, _ => false
  end.

End Header.

Import Lexer Cxx Elab Header.

(** * Properties *)

(** ** Elaboration of alias-declarations in general *)

Section AliasElaboration.

Implicit Types (sc : scope) (its : list item) (t : type_spec) (n : string).

Lemma resolve_weaken (tbl tbl' : gmap string fundamental) t f :
  tbl ⊆ tbl' -> resolve tbl t = Some f -> resolve tbl' t = Some f.
Proof.
  intros Hsub. destruct t as [g|m]; simpl; [done|].
  intros Hm. by eapply lookup_weaken.
Qed.

(** What a successful alias-declaration has checked and done. *)
Lemma elab_alias_inv sc n t sc' :
  elab_decl sc (AliasDecl n t) = Some sc' ->
  exists f,
    resolve (typedefs sc) t = Some f
    /\ objects sc !! n = None /\ functions sc !! n = None
    /\ typedefs sc' !! n = Some f
    /\ typedefs sc ⊆ typedefs sc'
    /\ objects sc' = objects sc /\ functions sc' = functions sc.
Proof.
  unfold elab_decl.
  destruct (resolve (typedefs sc) t) as [f|] eqn:Hr; [|discriminate].
  destruct (objects sc !! n) eqn:Ho; [discriminate|].
  destruct (functions sc !! n) eqn:Hf; [discriminate|].
  destruct (typedefs sc !! n) as [g|] eqn:Ht.
  - destruct (decide (f = g)) as [->|]; [|discriminate].
    intros [= <-]. exists g. by repeat split.
  - intros [= <-]. exists f. simpl. repeat split; try done.
    + apply lookup_insert_eq.
    + by apply insert_subseteq.
Qed.

(** Declaring an alias that the scope already has, with the type it
    already names, changes nothing. *)
Lemma elab_alias_again sc n t f :
  resolve (typedefs sc) t = Some f ->
  typedefs sc !! n = Some f ->
  objects sc !! n = None -> functions sc !! n = None ->
  elab_decl sc (AliasDecl n t) = Some sc.
Proof.
  intros Hr Ht Ho Hf. unfold elab_decl. rewrite Hr, Ho, Hf, Ht.
  by rewrite decide_True.
Qed.

Lemma is_alias_inv (it : item) :
  is_alias it = true -> exists n t, it = Declaration (AliasDecl n t).
Proof.
  destruct it as [?|[n t| | |]]; simpl; try discriminate. eauto.
Qed.

(** Alias-declarations only extend the typedef table. *)
Lemma elaborate_aliases_frame its :
  forallb is_alias its = true ->
  forall sc sc', elaborate its sc = Some sc' ->
    typedefs sc ⊆ typedefs sc'
    /\ objects sc' = objects sc /\ functions sc' = functions sc.
Proof.
  induction its as [|it its IH]; simpl.
  - intros _ sc sc' [= <-]. done.
  - intros [Hit Hits]%andb_prop sc sc'.
    destruct (is_alias_inv it Hit) as (n & t & ->). cbn [elab_item].
    destruct (elab_decl sc (AliasDecl n t)) as [sc1|] eqn:H1; [|discriminate].
    intros H2.
    destruct (elab_alias_inv _ _ _ _ H1) as (f & _ & _ & _ & _ & Hsub & Ho & Hf).
    destruct (IH Hits _ _ H2) as (Hsub' & Ho' & Hf').
    repeat split; [by etrans| congruence | congruence].
Qed.

(** Once a list of alias-declarations has been elaborated, elaborating it
    again in the scope reached, or in one that has more typedefs, is
    accepted and adds nothing. *)
Lemma elaborate_aliases_stable its :
  forallb is_alias its = true ->
  forall sc sc', elaborate its sc = Some sc' ->
  forall sc2,
    typedefs sc' ⊆ typedefs sc2 ->
    objects sc2 = objects sc -> functions sc2 = functions sc ->
    elaborate its sc2 = Some sc2.
Proof.
  induction its as [|it its IH]; simpl; [done|].
  intros [Hit Hits]%andb_prop sc sc'.
  destruct (is_alias_inv it Hit) as (n & t & ->). cbn [elab_item].
  destruct (elab_decl sc (AliasDecl n t)) as [sc1|] eqn:H1; [|discriminate].
  intros H2 sc2 Hsub Ho Hf.
  destruct (elab_alias_inv _ _ _ _ H1) as (f & Hr & Hon & Hfn & Hn & Hsub1 & Ho1 & Hf1).
  destruct (elaborate_aliases_frame its Hits _ _ H2) as (Hsub2 & _ & _).
  assert (typedefs sc1 ⊆ typedefs sc2) as Hsub12 by (by etrans).
  rewrite (elab_alias_again sc2 n t f).
  - eapply IH; eauto; congruence.
  - eapply resolve_weaken; [|exact Hr]. by etrans.
  - by eapply lookup_weaken.
  - by rewrite Ho.
  - by rewrite Hf.
Qed.

Lemma elaborate_app its1 its2 sc :
  elaborate (its1 ++ its2)%list sc =
  match elaborate its1 sc with
  | Some sc' => elaborate its2 sc'
  | None => None
  end.
Proof.
  revert sc. induction its1 as [|it its1 IH]; intros sc; simpl; [done|].
  destruct (elab_item sc it); [apply IH | done].
Qed.

Lemma parse_app (l1 l2 : list string) : parse (l1 ++ l2)%list = (parse l1 ++ parse l2)%list.
Proof. apply omap_app. Qed.

End AliasElaboration.

(** ** The fragment at work

    What the parser and the elaborator do on declarations the header
    does not contain. *)

Example parse_directive :
  parse ["#include <vector>"; "#pragma once"]
  = [Preprocessor "include <vector>"; Preprocessor "pragma once"].
Proof. reflexivity. Qed.

Example parse_function_and_object :
  parse ["double f(double x);"; ""; "  double total;"; "// note"]
  = [ Declaration (FunctionDecl (Fundamental Fdouble) "f");
      Declaration (ObjectDef (Fundamental Fdouble) "total") ].
Proof. reflexivity. Qed.

Example parse_alias_of_alias :
  parse ["using A = double;"; "using B=A ;"]
  = [ Declaration (AliasDecl "A" (Fundamental Fdouble));
      Declaration (AliasDecl "B" (TypeName "A")) ].
Proof. reflexivity. Qed.

Example directive_is_not_elaborated :
  translate ["#include <vector>"; "using A = double;"] empty_scope = None.
Proof. reflexivity. Qed.

Example object_definition_adds_state :
  objects <$> translate ["double total;"] empty_scope
  = Some {[ "total" := Fdouble ]}.
Proof. vm_compute. reflexivity. Qed.

Example object_defined_twice_is_rejected :
  translate ["double total;"; "double total;"] empty_scope = None.
Proof. vm_compute. reflexivity. Qed.

Example alias_redeclared_with_other_type_is_rejected :
  translate ["using A = double;"; "using A = bool;"] empty_scope = None.
Proof. vm_compute. reflexivity. Qed.

Example alias_of_undeclared_name_is_rejected :
  translate ["using A = B;"] empty_scope = None.
Proof. vm_compute. reflexivity. Qed.

(** ** The header, parsed and elaborated *)

Lemma items_eq :
  items =
  [ Declaration (AliasDecl "Time" (Fundamental Fdouble));
    Declaration (AliasDecl "Observation" (Fundamental Fdouble));
    Declaration (AliasDecl "Mean" (Fundamental Fdouble));
    Declaration (AliasDecl "SD" (Fundamental Fdouble));
    Declaration (AliasDecl "LogLikelihood" (Fundamental Fdouble));
    Declaration (AliasDecl "Rp" (Fundamental Fdouble)) ].
Proof. vm_compute. reflexivity. Qed.

Lemma items_all_aliases : forallb is_alias items = true.
Proof. rewrite items_eq. reflexivity. Qed.

Lemma alias_names_eq :
  alias_names = ["Time"; "Observation"; "Mean"; "SD"; "LogLikelihood"; "Rp"].
Proof. unfold alias_names. rewrite items_eq. reflexivity. Qed.

Lemma include_empty : include empty_scope = Some (Scope table ∅ ∅).
Proof. vm_compute. reflexivity. Qed.

Lemma table_lookup n : In n alias_names -> table !! n = Some Fdouble.
Proof.
  rewrite alias_names_eq. simpl.
  intros [<-|[<-|[<-|[<-|[<-|[<-|[]]]]]]]; vm_compute; reflexivity.
Qed.

Lemma denote_alias n : In n alias_names -> denote table n = double.
Proof. intros Hn. unfold denote. by rewrite (table_lookup n Hn). Qed.

Lemma alias_declared n :
  In n alias_names -> In (n, Fundamental Fdouble) (aliases items).
Proof.
  rewrite alias_names_eq, items_eq. simpl.
  intros [<-|[<-|[<-|[<-|[<-|[<-|[]]]]]]]; tauto.
Qed.

Lemma alias_has_type n (v : value) :
  In n alias_names ->
  has_type table v (TypeName n) = has_type table v (Fundamental Fdouble).
Proof. intros Hn. unfold has_type. simpl. by rewrite (table_lookup n Hn). Qed.

Lemma include_frame sc sc' :
  include sc = Some sc' ->
  typedefs sc ⊆ typedefs sc'
  /\ objects sc' = objects sc /\ functions sc' = functions sc.
Proof. apply elaborate_aliases_frame, items_all_aliases. Qed.

Lemma include_again sc sc' : include sc = Some sc' -> include sc' = Some sc'.
Proof.
  intros H. destruct (include_frame _ _ H) as (_ & Ho & Hf).
  by eapply (elaborate_aliases_stable items items_all_aliases sc sc').
Qed.

(** ** The claims *)

(** C1. Each of the names Time, Observation, Mean, SD, LogLikelihood and
    Rp is declared by the header as an alias of the keyword [double] and
    resolves to the fundamental type double: a floating-point type of 64
    bits, whose carrier is IEEE-754 binary64. *)
Theorem alias_resolves_to_double :
  Forall (fun n =>
            In (n, Fundamental Fdouble) (aliases items)
            /\ resolve table (TypeName n) = Some Fdouble
            /\ denote table n = float)
         ["Time"; "Observation"; "Mean"; "SD"; "LogLikelihood"; "Rp"]
  /\ size_bits Fdouble = 64%N
  /\ is_floating Fdouble = true
  /\ carrier Fdouble = float.
Proof.
  split; [|by repeat split].
  rewrite <- alias_names_eq. apply List.Forall_forall. intros n Hn.
  split; [by apply alias_declared|].
  split; [by apply table_lookup | by apply denote_alias].
Qed.

(** C2, as the specification words it: one header with exactly seven
    aliases.  The header has six. *)
Lemma seven_aliases_refuted :
  ~ (length Source.files = 1
     /\ length (aliases (parse Source.epiforecast_types_hpp)) = 7).
Proof. intros [_ H]. vm_compute in H. discriminate. Qed.

(** C2, amended.  The source is a single header; it contains exactly six
    alias-declarations and nothing else, for Time, Observation, Mean, SD,
    LogLikelihood and Rp in this order, each bound to [double]. *)
Theorem header_has_six_aliases :
  Source.files = [(Source.path, Source.epiforecast_types_hpp)]
  /\ length Source.files = 1
  /\ aliases (parse Source.epiforecast_types_hpp) =
       [ ("Time", Fundamental Fdouble);
         ("Observation", Fundamental Fdouble);
         ("Mean", Fundamental Fdouble);
         ("SD", Fundamental Fdouble);
         ("LogLikelihood", Fundamental Fdouble);
         ("Rp", Fundamental Fdouble) ]
  /\ length (aliases (parse Source.epiforecast_types_hpp)) = 6
  /\ length (parse Source.epiforecast_types_hpp) = 6.
Proof.
  change (parse Source.epiforecast_types_hpp) with items.
  rewrite items_eq. by repeat split.
Qed.

(** C3. Every alias of the header is a transparent synonym: it is the
    same type as [double], a value has the alias type exactly when it has
    type [double], the Rocq type it denotes is [double], and so are the
    six definitions of the embedding; a value of an alias type is a value
    of [double] as it stands. *)
Theorem alias_is_transparent_synonym :
  Forall (fun n =>
            same_type table (TypeName n) (Fundamental Fdouble) = true
            /\ (forall v, has_type table v (TypeName n)
                          = has_type table v (Fundamental Fdouble))
            /\ denote table n = carrier Fdouble)
         alias_names
  /\ (Time = double /\ Observation = double /\ Mean = double
      /\ SD = double /\ LogLikelihood = double /\ Rp = double)
  /\ (forall x : Time, exists d : double, d = x).
Proof.
  split; [|split; [by repeat split | intros x; by exists x]].
  apply List.Forall_forall. intros n Hn. repeat split.
  - unfold same_type. simpl. by rewrite (table_lookup n Hn).
  - intros v. by apply alias_has_type.
  - by apply denote_alias.
Qed.

(** C4. Nothing restricts the values of the alias types: every [double],
    NaN and the two infinities among them, has each of the six alias
    types, and the header declares no operation that could constrain a
    value. *)
Theorem every_double_is_admissible :
  (forall d : double,
      Forall (fun n => has_type table (of_double d) (TypeName n) = true)
             ["Time"; "Observation"; "Mean"; "SD"; "LogLikelihood"; "Rp"])
  /\ Forall (fun d =>
               Forall (fun n => has_type table (of_double d) (TypeName n) = true)
                      alias_names)
            [nan; infinity; neg_infinity]
  /\ (forall d : double,
         exists (t : Time) (o : Observation) (m : Mean) (s : SD)
                (l : LogLikelihood) (r : Rp),
           t = d /\ o = d /\ m = d /\ s = d /\ l = d /\ r = d)
  /\ operations items = [].
Proof.
  assert (forall d : double,
             Forall (fun n => has_type table (of_double d) (TypeName n) = true)
                    alias_names) as Hall.
  { intros d. apply List.Forall_forall. intros n Hn.
    rewrite (alias_has_type n _ Hn). reflexivity. }
  split; [intros d; rewrite <- alias_names_eq; apply Hall|].
  split; [repeat constructor; apply Hall|].
  split; [intros d; by exists d, d, d, d, d, d|].
  rewrite items_eq. reflexivity.
Qed.

(** A unit whose items are all alias-declarations offers no operation
    and owns no object. *)
Lemma aliases_only_no_operations (its : list item) :
  forallb is_alias its = true ->
  operations its = [] /\ object_names its = [] /\ directives its = [].
Proof.
  induction its as [|it its IH]; simpl; [done|].
  intros [Hit Hits]%andb_prop.
  destruct (is_alias_inv it Hit) as (n & t & ->).
  exact (IH Hits).
Qed.

(** C5. Every line of the header that is not blank or a comment is read,
    in full, as an alias-declaration: no line is left unread, so none
    hides a function, a constructor or any other operation.  The set of
    operations of the header is therefore empty, the unit it compiles to
    has no function, and, whatever failing means, no operation of the
    header fails. *)
Theorem no_operation_can_fail :
  forallb is_alias (parse Source.epiforecast_types_hpp) = true
  /\ operations (parse Source.epiforecast_types_hpp) = []
  /\ (exists sc, translate Source.epiforecast_types_hpp empty_scope = Some sc
                 /\ functions sc = ∅ /\ objects sc = ∅)
  /\ forall fails : string -> Prop,
       Forall (fun op => ~ fails op) (operations (parse Source.epiforecast_types_hpp)).
Proof.
  change (parse Source.epiforecast_types_hpp) with items.
  pose proof items_all_aliases as Hall.
  destruct (aliases_only_no_operations items Hall) as (Hops & _ & _).
  split; [exact Hall|]. split; [exact Hops|]. split.
  - exists (Scope table ∅ ∅). split; [exact include_empty | done].
  - intros fails. rewrite Hops. constructor.
Qed.

(** C6. The header consists of alias-declarations only: no directive, no
    function, no object.  Wherever it is included, the objects and the
    functions of the unit are the ones it had before. *)
Theorem include_leaves_state_unchanged (sc sc' : scope) :
  include sc = Some sc' ->
  objects sc' = objects sc
  /\ functions sc' = functions sc
  /\ object_names items = []
  /\ operations items = []
  /\ forallb is_alias items = true.
Proof.
  intros H. destruct (include_frame _ _ H) as (_ & Ho & Hf).
  repeat split; try done; rewrite items_eq; reflexivity.
Qed.

Lemma include_leaves_state_unchanged_witness :
  let sc := Scope ∅ {[ "x" := Fdouble ]} {[ "f" := Fbool ]} in
  include sc = Some (Scope table {[ "x" := Fdouble ]} {[ "f" := Fbool ]})
  /\ objects (Scope table {[ "x" := Fdouble ]} {[ "f" := Fbool ]}) = objects sc.
Proof.
  intros sc.
  assert (include sc = Some (Scope table {[ "x" := Fdouble ]} {[ "f" := Fbool ]})) as H
    by (vm_compute; reflexivity).
  split; [exact H|].
  exact (proj1 (include_leaves_state_unchanged sc _ H)).
Defined.

(** C7. The header stands alone: it has no preprocessor directive, so no
    [#include]; the only type it refers to is the keyword [double]; and
    it compiles in the empty scope, giving the six typedefs and nothing
    else. *)
Theorem header_is_standalone :
  directives items = []
  /\ Forall (fun nt => nt.2 = Fundamental Fdouble) (aliases items)
  /\ translate Source.epiforecast_types_hpp empty_scope = Some (Scope table ∅ ∅)
  /\ table = list_to_map ((fun n => (n, Fdouble)) <$> alias_names).
Proof.
  split; [rewrite items_eq; reflexivity|].
  split; [rewrite items_eq; repeat constructor|].
  split; [exact include_empty|].
  vm_compute. reflexivity.
Qed.

(** C8. Any two of the six aliases are the same type: a value that has
    one of the alias types has the other, unchanged, and both denote the
    same Rocq type.  In particular an SD goes where a Mean is expected,
    by the identity. *)
Theorem aliases_are_interchangeable (a b : string) :
  In a ["Time"; "Observation"; "Mean"; "SD"; "LogLikelihood"; "Rp"] ->
  In b ["Time"; "Observation"; "Mean"; "SD"; "LogLikelihood"; "Rp"] ->
  same_type table (TypeName a) (TypeName b) = true
  /\ (forall v, has_type table v (TypeName a) = true ->
                has_type table v (TypeName b) = true)
  /\ denote table a = denote table b
  /\ (exists convert : SD -> Mean, forall s : SD, convert s = s).
Proof.
  rewrite <- alias_names_eq. intros Ha Hb. repeat split.
  - unfold same_type. simpl.
    by rewrite (table_lookup a Ha), (table_lookup b Hb).
  - intros v. by rewrite (alias_has_type a v Ha), (alias_has_type b v Hb).
  - by rewrite (denote_alias a Ha), (denote_alias b Hb).
  - by exists (fun s => s).
Qed.

Lemma aliases_are_interchangeable_witness :
  same_type table (TypeName "SD") (TypeName "Mean") = true
  /\ has_type table (of_double 2.5%float) (TypeName "Mean") = true.
Proof.
  assert (In "SD" ["Time"; "Observation"; "Mean"; "SD"; "LogLikelihood"; "Rp"])
    as Ha by (simpl; tauto).
  assert (In "Mean" ["Time"; "Observation"; "Mean"; "SD"; "LogLikelihood"; "Rp"])
    as Hb by (simpl; tauto).
  destruct (aliases_are_interchangeable "SD" "Mean" Ha Hb) as (Hs & Hv & _).
  split; [exact Hs|].
  apply Hv. vm_compute. reflexivity.
Defined.

(** C9. The header has no include guard, indeed no directive at all, and
    yet including it a second time is accepted and changes nothing: the
    text taken twice compiles to what the text taken once compiles to. *)
Theorem include_is_idempotent (sc sc' : scope) :
  include sc = Some sc' ->
  include sc' = Some sc'
  /\ translate (Source.epiforecast_types_hpp ++ Source.epiforecast_types_hpp)%list sc
     = translate Source.epiforecast_types_hpp sc
  /\ directives items = [].
Proof.
  intros H. pose proof (include_again _ _ H) as H'.
  split; [exact H'|]. split; [|rewrite items_eq; reflexivity].
  unfold translate. rewrite parse_app, elaborate_app.
  change (parse Source.epiforecast_types_hpp) with items.
  change (elaborate items) with include.
  by rewrite H.
Qed.

Lemma include_is_idempotent_witness :
  include empty_scope = Some (Scope table ∅ ∅)
  /\ include (Scope table ∅ ∅) = Some (Scope table ∅ ∅).
Proof.
  assert (include empty_scope = Some (Scope table ∅ ∅)) as H
    by (vm_compute; reflexivity).
  split; [exact H|].
  exact (proj1 (include_is_idempotent empty_scope _ H)).
Defined.

(** ** Where the header is accepted, and what it leaves behind *)

Section Inclusion.

Implicit Types (sc : scope) (n : string) (ns : list string).

Lemma elab_double_alias sc n :
  elab_decl sc (AliasDecl n (Fundamental Fdouble)) =
  if admits sc n
  then Some (Scope (<[n:=Fdouble]> (typedefs sc)) (objects sc) (functions sc))
  else None.
Proof.
  destruct sc as [t o f]. unfold elab_decl, admits. simpl.
  destruct (o !! n); [done|]. destruct (f !! n); [done|].
  destruct (t !! n) as [g|] eqn:Ht; [|done].
  destruct g; simpl; try done.
  by rewrite insert_id.
Qed.

(** Once [n] has been declared, the scope admits the names it admitted
    before. *)
Lemma admits_after sc n m :
  admits sc n = true ->
  admits (Scope (<[n:=Fdouble]> (typedefs sc)) (objects sc) (functions sc)) m
  = admits sc m.
Proof.
  destruct sc as [t o f]. unfold admits. simpl. intros Hn.
  destruct (decide (n = m)) as [->|Hne].
  - rewrite lookup_insert_eq.
    destruct (o !! m); [done|]. destruct (f !! m); [done|].
    destruct (t !! m) as [g|]; [|done]. by rewrite Hn.
  - by rewrite lookup_insert_ne.
Qed.

Lemma forallb_admits_after sc n ns :
  admits sc n = true ->
  forallb (admits (Scope (<[n:=Fdouble]> (typedefs sc)) (objects sc) (functions sc))) ns
  = forallb (admits sc) ns.
Proof.
  intros Hn. induction ns as [|m ns IH]; simpl; [done|].
  by rewrite IH, (admits_after sc n m Hn).
Qed.

Lemma doubles_insert (S : gset string) (t : gmap string fundamental) n :
  gset_to_gmap Fdouble ({[ n ]} ∪ S) ∪ t
  = gset_to_gmap Fdouble S ∪ <[n:=Fdouble]> t.
Proof.
  apply map_eq. intros k. rewrite !lookup_union, !lookup_gset_to_gmap.
  destruct (decide (n = k)) as [->|Hne].
  - rewrite lookup_insert_eq, option_guard_True by set_solver.
    destruct (decide (k ∈ S)).
    + rewrite option_guard_True by done. by destruct (t !! k).
    + rewrite option_guard_False by done. by destruct (t !! k).
  - rewrite lookup_insert_ne by done.
    destruct (decide (k ∈ S)).
    + rewrite !option_guard_True by set_solver. done.
    + rewrite !option_guard_False
        by (rewrite ?elem_of_union, ?elem_of_singleton; intuition).
      done.
Qed.

(** A list of declarations [using n = double;] in closed form. *)
Lemma elaborate_double_aliases ns sc :
  elaborate (map double_alias ns) sc =
  if forallb (admits sc) ns
  then Some (Scope (gset_to_gmap Fdouble (list_to_set ns) ∪ typedefs sc)
                   (objects sc) (functions sc))
  else None.
Proof.
  revert sc. induction ns as [|n ns IH]; intros sc.
  - simpl. rewrite gset_to_gmap_empty, (left_id_L ∅ (∪)). by destruct sc.
  - cbn [map elaborate forallb]. unfold double_alias at 1. cbn [elab_item].
    rewrite elab_double_alias.
    destruct (admits sc n) eqn:Hn; [|done]. rewrite IH. cbn [andb].
    rewrite (forallb_admits_after sc n ns Hn).
    cbn [typedefs objects functions list_to_set].
    destruct (forallb (admits sc) ns); [|done].
    by rewrite doubles_insert.
Qed.

End Inclusion.

Lemma items_double_aliases : items = map double_alias alias_names.
Proof. rewrite alias_names_eq, items_eq. reflexivity. Qed.

Lemma table_doubles : table = gset_to_gmap Fdouble (list_to_set alias_names).
Proof. vm_compute. reflexivity. Qed.

(** Including the header, in closed form. *)
Lemma include_closed_form (sc : scope) :
  include sc =
  if forallb (admits sc) alias_names
  then Some (Scope (table ∪ typedefs sc) (objects sc) (functions sc))
  else None.
Proof.
  unfold include. rewrite items_double_aliases, elaborate_double_aliases.
  by rewrite <- table_doubles.
Qed.

Lemma admits_spec (sc : scope) (n : string) :
  admits sc n = true <->
  objects sc !! n = None /\ functions sc !! n = None
  /\ (typedefs sc !! n = None \/ typedefs sc !! n = Some Fdouble).
Proof.
  unfold admits.
  destruct (objects sc !! n), (functions sc !! n), (typedefs sc !! n) as [[]|];
    simpl; intuition (discriminate || eauto).
Qed.

Lemma table_lookup_other (m : string) : ~ In m alias_names -> table !! m = None.
Proof.
  intros Hm. rewrite table_doubles. apply lookup_gset_to_gmap_None.
  rewrite elem_of_list_to_set, list_elem_of_In. exact Hm.
Qed.

Lemma forallb_Permutation {A} (p : A -> bool) (l1 l2 : list A) :
  Permutation l1 l2 -> forallb p l1 = forallb p l2.
Proof.
  induction 1 as [|x l1 l2 _ IH|x y l|l1 l2 l3 _ IH1 _ IH2]; simpl.
  - reflexivity.
  - by rewrite IH.
  - by rewrite !andb_assoc, (andb_comm (p y)).
  - by rewrite IH1.
Qed.

Example include_rejected_by_object :
  include (Scope ∅ {[ "Time" := Fdouble ]} ∅) = None.
Proof. vm_compute. reflexivity. Qed.

Example include_rejected_by_function :
  include (Scope ∅ ∅ {[ "Mean" := Fdouble ]}) = None.
Proof. vm_compute. reflexivity. Qed.

Example include_rejected_by_other_typedef :
  include (Scope {[ "Rp" := Fbool ]} ∅ ∅) = None.
Proof. vm_compute. reflexivity. Qed.

(** ** Further properties of the header *)

(** X1. The header is accepted in a scope exactly when none of its six
    names is an object or a function there and each of them is either
    undeclared or already an alias of [double]. *)
Theorem include_accepted_iff (sc : scope) :
  is_Some (include sc) <->
  forall n, In n ["Time"; "Observation"; "Mean"; "SD"; "LogLikelihood"; "Rp"] ->
    objects sc !! n = None /\ functions sc !! n = None
    /\ (typedefs sc !! n = None \/ typedefs sc !! n = Some Fdouble).
Proof.
  rewrite <- alias_names_eq, include_closed_form.
  destruct (forallb (admits sc) alias_names) eqn:Hall.
  - split; [intros _ n Hn | by eauto].
    apply admits_spec. by eapply forallb_forall in Hall.
  - split; [by intros [? [=]]|]. intros H.
    assert (forallb (admits sc) alias_names = true) as Hall'.
    { apply forallb_forall. intros n Hn. apply admits_spec. by apply H. }
    congruence.
Qed.

(** X2. Where the header is accepted, the typedefs afterwards are the six
    aliases laid over the typedefs before: each of the six names is an
    alias of [double], and every other name means what it meant. *)
Theorem include_result (sc sc' : scope) :
  include sc = Some sc' ->
  typedefs sc' = table ∪ typedefs sc
  /\ (forall n, In n ["Time"; "Observation"; "Mean"; "SD"; "LogLikelihood"; "Rp"] ->
        typedefs sc' !! n = Some Fdouble)
  /\ (forall m, ~ In m ["Time"; "Observation"; "Mean"; "SD"; "LogLikelihood"; "Rp"] ->
        typedefs sc' !! m = typedefs sc !! m).
Proof.
  rewrite <- alias_names_eq, include_closed_form.
  destruct (forallb (admits sc) alias_names); [|discriminate].
  intros [= <-]. cbn [typedefs]. split; [reflexivity|]. split.
  - intros n Hn. by rewrite lookup_union, (table_lookup n Hn), union_Some_l.
  - intros m Hm.
    by rewrite lookup_union, (table_lookup_other m Hm), (left_id_L None (∪)).
Qed.

Lemma include_result_witness :
  let sc := Scope {[ "flag" := Fbool; "Time" := Fdouble ]} ∅ ∅ in
  include sc = Some (Scope (table ∪ typedefs sc) ∅ ∅)
  /\ (table ∪ typedefs sc) !! "SD" = Some Fdouble
  /\ (table ∪ typedefs sc) !! "flag" = Some Fbool.
Proof.
  intros sc.
  assert (include sc = Some (Scope (table ∪ typedefs sc) ∅ ∅)) as H
    by (vm_compute; reflexivity).
  destruct (include_result sc _ H) as (_ & Hin & Hout).
  split; [exact H|]. split.
  - apply Hin. simpl. tauto.
  - refine (eq_trans (Hout "flag" _) _); [|vm_compute; reflexivity].
    simpl. intros [H'|[H'|[H'|[H'|[H'|[H'|[]]]]]]]; discriminate H'.
Defined.

(** X3. The order of the lines of the header does not matter: any
    rearrangement of its lines compiles, in any scope, to what the header
    compiles to. *)
Theorem line_order_is_irrelevant (ls : list string) (sc : scope) :
  Permutation ls Source.epiforecast_types_hpp ->
  translate ls sc = translate Source.epiforecast_types_hpp sc.
Proof.
  intros Hp. unfold translate.
  assert (Permutation (parse ls) (map double_alias alias_names)) as Hq.
  { rewrite <- items_double_aliases. unfold items, parse. by rewrite Hp. }
  destruct (Permutation_map_inv _ _ Hq) as (ns & -> & Hns).
  change (parse Source.epiforecast_types_hpp) with items.
  rewrite items_double_aliases, !elaborate_double_aliases.
  rewrite (forallb_Permutation _ _ _ Hns).
  by rewrite (list_to_set_perm_L (C:=gset string) _ _ Hns).
Qed.

Lemma line_order_is_irrelevant_witness :
  translate (reverse Source.epiforecast_types_hpp) empty_scope
  = translate Source.epiforecast_types_hpp empty_scope.
Proof.
  apply line_order_is_irrelevant. apply reverse_Permutation.
Defined.

Lemma include_lookup_alias (sc sc' : scope) (n : string) :
  include sc = Some sc' -> In n alias_names -> typedefs sc' !! n = Some Fdouble.
Proof.
  rewrite include_closed_form.
  destruct (forallb (admits sc) alias_names); [|discriminate].
  intros [= <-] Hn. cbn [typedefs].
  by rewrite lookup_union, (table_lookup n Hn), union_Some_l.
Qed.

(** X4. After the header, in whatever unit it was included, a declaration
    written with one of the six aliases is elaborated exactly as the same
    declaration written with [double]: an object, a function returning
    it, or a further alias. *)
Theorem alias_use_is_double_use (sc sc' : scope) (n x : string) :
  include sc = Some sc' ->
  In n ["Time"; "Observation"; "Mean"; "SD"; "LogLikelihood"; "Rp"] ->
  elab_decl sc' (ObjectDef (TypeName n) x)
  = elab_decl sc' (ObjectDef (Fundamental Fdouble) x)
  /\ elab_decl sc' (FunctionDecl (TypeName n) x)
     = elab_decl sc' (FunctionDecl (Fundamental Fdouble) x)
  /\ elab_decl sc' (AliasDecl x (TypeName n))
     = elab_decl sc' (AliasDecl x (Fundamental Fdouble)).
Proof.
  rewrite <- alias_names_eq. intros H Hn.
  pose proof (include_lookup_alias sc sc' n H Hn) as Hl.
  unfold elab_decl, resolve. by rewrite Hl.
Qed.

Lemma alias_use_is_double_use_witness :
  elab_decl (Scope table ∅ ∅) (ObjectDef (TypeName "Mean") "mu")
  = Some (Scope table {[ "mu" := Fdouble ]} ∅).
Proof.
  assert (include empty_scope = Some (Scope table ∅ ∅)) as H
    by (vm_compute; reflexivity).
  assert (In "Mean" ["Time"; "Observation"; "Mean"; "SD"; "LogLikelihood"; "Rp"])
    as Hn by (simpl; tauto).
  rewrite (proj1 (alias_use_is_double_use empty_scope _ "Mean" "mu" H Hn)).
  vm_compute. reflexivity.
Defined.
